(** * HUB75 panel driver: example pin configurations and the engine contract

    Shallow embedding of [main/common/pins_example.h] (the six example
    configuration constructors and [printPinConfig]) together with models of
    the engine components that the configuration is consumed by
    (configuration validator, bit-plane encoder, row-pair count of the
    scan/address sequencer, chain mapper).  The header [hub75.h] that
    declares the record types, the enumerations and the
    [HUB75_CONFIG_DEFAULT()] baseline is not part of the sources at hand: the
    records carry exactly the fields the examples touch, and the baseline is
    a parameter of every constructor. *)

From Stdlib Require Import ZArith List Bool Lia String Ascii QArith.
From Stdlib Require Import Numbers.DecimalString Numbers.DecimalPos Numbers.DecimalZ.
Import ListNotations.

Open Scope Z_scope.

(** ** Data model *)

(** Modelled from the spec: the enumeration of scan patterns is declared in
    [hub75.h]; the examples use [HUB75_SCAN_1_16] and [HUB75_SCAN_1_32], the
    spec lists 1/8, 1/16 and 1/32. *)
Inductive hub75_scan_pattern_t : Type :=
  | HUB75_SCAN_1_8
  | HUB75_SCAN_1_16
  | HUB75_SCAN_1_32.

(** Modelled from the spec: the gamma modes of [hub75.h] (none, CIE1931,
    custom table); the examples use [HUB75_GAMMA_CIE1931]. *)
Inductive hub75_gamma_mode_t : Type :=
  | HUB75_GAMMA_NONE
  | HUB75_GAMMA_CIE1931
  | HUB75_GAMMA_CUSTOM.

(** The pin record [hub75_pins_t]: one GPIO number per signal, [-1] for an
    address line that is not wired. *)
Module Pins.

Record hub75_pins_t : Type := mk {
  r1 : Z; g1 : Z; b1 : Z;
  r2 : Z; g2 : Z; b2 : Z;
  a : Z; b : Z; c : Z; d : Z; e : Z;
  lat : Z; oe : Z; clk : Z
}.

Definition set_r1 (v : Z) (p : hub75_pins_t) : hub75_pins_t :=
  mk v (g1 p) (b1 p) (r2 p) (g2 p) (b2 p) (a p) (b p) (c p) (d p) (e p) (lat p) (oe p) (clk p).
Definition set_g1 (v : Z) (p : hub75_pins_t) : hub75_pins_t :=
  mk (r1 p) v (b1 p) (r2 p) (g2 p) (b2 p) (a p) (b p) (c p) (d p) (e p) (lat p) (oe p) (clk p).
Definition set_b1 (v : Z) (p : hub75_pins_t) : hub75_pins_t :=
  mk (r1 p) (g1 p) v (r2 p) (g2 p) (b2 p) (a p) (b p) (c p) (d p) (e p) (lat p) (oe p) (clk p).
Definition set_r2 (v : Z) (p : hub75_pins_t) : hub75_pins_t :=
  mk (r1 p) (g1 p) (b1 p) v (g2 p) (b2 p) (a p) (b p) (c p) (d p) (e p) (lat p) (oe p) (clk p).
Definition set_g2 (v : Z) (p : hub75_pins_t) : hub75_pins_t :=
  mk (r1 p) (g1 p) (b1 p) (r2 p) v (b2 p) (a p) (b p) (c p) (d p) (e p) (lat p) (oe p) (clk p).
Definition set_b2 (v : Z) (p : hub75_pins_t) : hub75_pins_t :=
  mk (r1 p) (g1 p) (b1 p) (r2 p) (g2 p) v (a p) (b p) (c p) (d p) (e p) (lat p) (oe p) (clk p).
Definition set_a (v : Z) (p : hub75_pins_t) : hub75_pins_t :=
  mk (r1 p) (g1 p) (b1 p) (r2 p) (g2 p) (b2 p) v (b p) (c p) (d p) (e p) (lat p) (oe p) (clk p).
Definition set_b (v : Z) (p : hub75_pins_t) : hub75_pins_t :=
  mk (r1 p) (g1 p) (b1 p) (r2 p) (g2 p) (b2 p) (a p) v (c p) (d p) (e p) (lat p) (oe p) (clk p).
Definition set_c (v : Z) (p : hub75_pins_t) : hub75_pins_t :=
  mk (r1 p) (g1 p) (b1 p) (r2 p) (g2 p) (b2 p) (a p) (b p) v (d p) (e p) (lat p) (oe p) (clk p).
Definition set_d (v : Z) (p : hub75_pins_t) : hub75_pins_t :=
  mk (r1 p) (g1 p) (b1 p) (r2 p) (g2 p) (b2 p) (a p) (b p) (c p) v (e p) (lat p) (oe p) (clk p).
Definition set_e (v : Z) (p : hub75_pins_t) : hub75_pins_t :=
  mk (r1 p) (g1 p) (b1 p) (r2 p) (g2 p) (b2 p) (a p) (b p) (c p) (d p) v (lat p) (oe p) (clk p).
Definition set_lat (v : Z) (p : hub75_pins_t) : hub75_pins_t :=
  mk (r1 p) (g1 p) (b1 p) (r2 p) (g2 p) (b2 p) (a p) (b p) (c p) (d p) (e p) v (oe p) (clk p).
Definition set_oe (v : Z) (p : hub75_pins_t) : hub75_pins_t :=
  mk (r1 p) (g1 p) (b1 p) (r2 p) (g2 p) (b2 p) (a p) (b p) (c p) (d p) (e p) (lat p) v (clk p).
Definition set_clk (v : Z) (p : hub75_pins_t) : hub75_pins_t :=
  mk (r1 p) (g1 p) (b1 p) (r2 p) (g2 p) (b2 p) (a p) (b p) (c p) (d p) (e p) (lat p) (oe p) v.

(** The sentinel of a signal that is not wired. *)
Definition unused : Z := -1.

(** The six colour lanes, the five address lines and the three control
    signals, in the order of the record. *)
Definition data_pins (p : hub75_pins_t) : list Z :=
  [r1 p; g1 p; b1 p; r2 p; g2 p; b2 p].
Definition address_pins (p : hub75_pins_t) : list Z :=
  [a p; b p; c p; d p; e p].
Definition control_pins (p : hub75_pins_t) : list Z :=
  [lat p; oe p; clk p].
Definition all_pins (p : hub75_pins_t) : list Z :=
  data_pins p ++ address_pins p ++ control_pins p.

(** The GPIO numbers really driven: every signal but the unused ones. *)
Definition wired (p : hub75_pins_t) : list Z :=
  filter (fun v => negb (v =? unused)) (all_pins p).

End Pins.

(** The configuration record [hub75_config_t], with the fields the examples
    assign.  Every numeric field is a C integer whose declared width is in
    [hub75.h]; all the constants of the examples are small non-negative
    numbers (or [-1]), so they are kept as [Z]. *)
Record hub75_config_t : Type := mk_config {
  width : Z;
  height : Z;
  chain_length : Z;
  scan_pattern : hub75_scan_pattern_t;
  pins : Pins.hub75_pins_t;
  output_clock_speed : Z;
  bit_depth : Z;
  min_refresh_rate : Z;
  double_buffer : bool;
  temporal_dither : bool;
  gamma_mode : hub75_gamma_mode_t;
  brightness : Z;
  latch_blanking : Z;
  clk_phase_inverted : bool
}.

(** Field assignments [config.f = v]. *)
Definition set_width (v : Z) (k : hub75_config_t) : hub75_config_t :=
  mk_config v (height k) (chain_length k) (scan_pattern k) (pins k)
    (output_clock_speed k) (bit_depth k) (min_refresh_rate k) (double_buffer k)
    (temporal_dither k) (gamma_mode k) (brightness k) (latch_blanking k)
    (clk_phase_inverted k).
Definition set_height (v : Z) (k : hub75_config_t) : hub75_config_t :=
  mk_config (width k) v (chain_length k) (scan_pattern k) (pins k)
    (output_clock_speed k) (bit_depth k) (min_refresh_rate k) (double_buffer k)
    (temporal_dither k) (gamma_mode k) (brightness k) (latch_blanking k)
    (clk_phase_inverted k).
Definition set_chain_length (v : Z) (k : hub75_config_t) : hub75_config_t :=
  mk_config (width k) (height k) v (scan_pattern k) (pins k)
    (output_clock_speed k) (bit_depth k) (min_refresh_rate k) (double_buffer k)
    (temporal_dither k) (gamma_mode k) (brightness k) (latch_blanking k)
    (clk_phase_inverted k).
Definition set_scan_pattern (v : hub75_scan_pattern_t) (k : hub75_config_t) : hub75_config_t :=
  mk_config (width k) (height k) (chain_length k) v (pins k)
    (output_clock_speed k) (bit_depth k) (min_refresh_rate k) (double_buffer k)
    (temporal_dither k) (gamma_mode k) (brightness k) (latch_blanking k)
    (clk_phase_inverted k).
Definition set_pins (v : Pins.hub75_pins_t) (k : hub75_config_t) : hub75_config_t :=
  mk_config (width k) (height k) (chain_length k) (scan_pattern k) v
    (output_clock_speed k) (bit_depth k) (min_refresh_rate k) (double_buffer k)
    (temporal_dither k) (gamma_mode k) (brightness k) (latch_blanking k)
    (clk_phase_inverted k).
Definition set_output_clock_speed (v : Z) (k : hub75_config_t) : hub75_config_t :=
  mk_config (width k) (height k) (chain_length k) (scan_pattern k) (pins k)
    v (bit_depth k) (min_refresh_rate k) (double_buffer k)
    (temporal_dither k) (gamma_mode k) (brightness k) (latch_blanking k)
    (clk_phase_inverted k).
Definition set_bit_depth (v : Z) (k : hub75_config_t) : hub75_config_t :=
  mk_config (width k) (height k) (chain_length k) (scan_pattern k) (pins k)
    (output_clock_speed k) v (min_refresh_rate k) (double_buffer k)
    (temporal_dither k) (gamma_mode k) (brightness k) (latch_blanking k)
    (clk_phase_inverted k).
Definition set_min_refresh_rate (v : Z) (k : hub75_config_t) : hub75_config_t :=
  mk_config (width k) (height k) (chain_length k) (scan_pattern k) (pins k)
    (output_clock_speed k) (bit_depth k) v (double_buffer k)
    (temporal_dither k) (gamma_mode k) (brightness k) (latch_blanking k)
    (clk_phase_inverted k).
Definition set_double_buffer (v : bool) (k : hub75_config_t) : hub75_config_t :=
  mk_config (width k) (height k) (chain_length k) (scan_pattern k) (pins k)
    (output_clock_speed k) (bit_depth k) (min_refresh_rate k) v
    (temporal_dither k) (gamma_mode k) (brightness k) (latch_blanking k)
    (clk_phase_inverted k).
Definition set_temporal_dither (v : bool) (k : hub75_config_t) : hub75_config_t :=
  mk_config (width k) (height k) (chain_length k) (scan_pattern k) (pins k)
    (output_clock_speed k) (bit_depth k) (min_refresh_rate k) (double_buffer k)
    v (gamma_mode k) (brightness k) (latch_blanking k)
    (clk_phase_inverted k).
Definition set_gamma_mode (v : hub75_gamma_mode_t) (k : hub75_config_t) : hub75_config_t :=
  mk_config (width k) (height k) (chain_length k) (scan_pattern k) (pins k)
    (output_clock_speed k) (bit_depth k) (min_refresh_rate k) (double_buffer k)
    (temporal_dither k) v (brightness k) (latch_blanking k)
    (clk_phase_inverted k).
Definition set_brightness (v : Z) (k : hub75_config_t) : hub75_config_t :=
  mk_config (width k) (height k) (chain_length k) (scan_pattern k) (pins k)
    (output_clock_speed k) (bit_depth k) (min_refresh_rate k) (double_buffer k)
    (temporal_dither k) (gamma_mode k) v (latch_blanking k)
    (clk_phase_inverted k).
Definition set_latch_blanking (v : Z) (k : hub75_config_t) : hub75_config_t :=
  mk_config (width k) (height k) (chain_length k) (scan_pattern k) (pins k)
    (output_clock_speed k) (bit_depth k) (min_refresh_rate k) (double_buffer k)
    (temporal_dither k) (gamma_mode k) (brightness k) v
    (clk_phase_inverted k).
Definition set_clk_phase_inverted (v : bool) (k : hub75_config_t) : hub75_config_t :=
  mk_config (width k) (height k) (chain_length k) (scan_pattern k) (pins k)
    (output_clock_speed k) (bit_depth k) (min_refresh_rate k) (double_buffer k)
    (temporal_dither k) (gamma_mode k) (brightness k) (latch_blanking k)
    v.

(** Assignment through the nested record, [config.pins.s = v]. *)
Definition on_pins (f : Pins.hub75_pins_t -> Pins.hub75_pins_t)
    (k : hub75_config_t) : hub75_config_t :=
  set_pins (f (pins k)) k.

(** Statement sequencing for the constructors: [k ;; s] runs the assignment
    [s] on the configuration built so far. *)
Notation "k ;; s" := (s k) (at level 61, left associativity, only parsing).

(** ** The example constructors of [pins_example.h] *)

Section Examples.

(** The baseline [HUB75_CONFIG_DEFAULT()] of [hub75.h], the value every
    constructor starts from. *)
Variable HUB75_CONFIG_DEFAULT : hub75_config_t.

(** Example 1: typical 64x64 panel (1/32 scan) on ESP32. *)
Definition getDefaultConfig_ESP32 : hub75_config_t :=
  HUB75_CONFIG_DEFAULT
  ;; set_width 64
  ;; set_height 64
  ;; set_scan_pattern HUB75_SCAN_1_32
  ;; on_pins (Pins.set_r1 25)
  ;; on_pins (Pins.set_g1 26)
  ;; on_pins (Pins.set_b1 27)
  ;; on_pins (Pins.set_r2 14)
  ;; on_pins (Pins.set_g2 12)
  ;; on_pins (Pins.set_b2 13)
  ;; on_pins (Pins.set_a 23)
  ;; on_pins (Pins.set_b 19)
  ;; on_pins (Pins.set_c 5)
  ;; on_pins (Pins.set_d 17)
  ;; on_pins (Pins.set_e 18)
  ;; on_pins (Pins.set_lat 4)
  ;; on_pins (Pins.set_oe 15)
  ;; on_pins (Pins.set_clk 16)
  ;; set_output_clock_speed 20000000
  ;; set_bit_depth 8
  ;; set_min_refresh_rate 60
  ;; set_double_buffer false
  ;; set_temporal_dither false
  ;; set_gamma_mode HUB75_GAMMA_CIE1931
  ;; set_brightness 255.

(** Example 2: 32x32 panel (1/16 scan) on ESP32. *)
Definition getDefaultConfig_32x32 : hub75_config_t :=
  HUB75_CONFIG_DEFAULT
  ;; set_width 32
  ;; set_height 32
  ;; set_scan_pattern HUB75_SCAN_1_16
  ;; on_pins (Pins.set_r1 25)
  ;; on_pins (Pins.set_g1 26)
  ;; on_pins (Pins.set_b1 27)
  ;; on_pins (Pins.set_r2 14)
  ;; on_pins (Pins.set_g2 12)
  ;; on_pins (Pins.set_b2 13)
  ;; on_pins (Pins.set_a 23)
  ;; on_pins (Pins.set_b 19)
  ;; on_pins (Pins.set_c 5)
  ;; on_pins (Pins.set_d 17)
  ;; on_pins (Pins.set_e (-1))
  ;; on_pins (Pins.set_lat 4)
  ;; on_pins (Pins.set_oe 15)
  ;; on_pins (Pins.set_clk 16).

(** Example 3: ESP32-S3 with double buffering and dithering. *)
Definition getDefaultConfig_ESP32S3 : hub75_config_t :=
  HUB75_CONFIG_DEFAULT
  ;; set_width 64
  ;; set_height 64
  ;; set_scan_pattern HUB75_SCAN_1_32
  ;; on_pins (Pins.set_r1 1)
  ;; on_pins (Pins.set_g1 2)
  ;; on_pins (Pins.set_b1 3)
  ;; on_pins (Pins.set_r2 4)
  ;; on_pins (Pins.set_g2 5)
  ;; on_pins (Pins.set_b2 6)
  ;; on_pins (Pins.set_a 7)
  ;; on_pins (Pins.set_b 8)
  ;; on_pins (Pins.set_c 9)
  ;; on_pins (Pins.set_d 10)
  ;; on_pins (Pins.set_e 11)
  ;; on_pins (Pins.set_lat 12)
  ;; on_pins (Pins.set_oe 13)
  ;; on_pins (Pins.set_clk 14)
  ;; set_double_buffer true
  ;; set_temporal_dither true
  ;; set_bit_depth 10.

(** Example 4: ESP32-C6 with PARLIO. *)
Definition getDefaultConfig_ESP32C6 : hub75_config_t :=
  HUB75_CONFIG_DEFAULT
  ;; set_width 64
  ;; set_height 64
  ;; set_scan_pattern HUB75_SCAN_1_32
  ;; on_pins (Pins.set_r1 0)
  ;; on_pins (Pins.set_g1 1)
  ;; on_pins (Pins.set_b1 2)
  ;; on_pins (Pins.set_r2 3)
  ;; on_pins (Pins.set_g2 4)
  ;; on_pins (Pins.set_b2 5)
  ;; on_pins (Pins.set_a 6)
  ;; on_pins (Pins.set_b 7)
  ;; on_pins (Pins.set_c 8)
  ;; on_pins (Pins.set_d 9)
  ;; on_pins (Pins.set_e 10)
  ;; on_pins (Pins.set_lat 11)
  ;; on_pins (Pins.set_oe 12)
  ;; on_pins (Pins.set_clk 13)
  ;; set_output_clock_speed 40000000.

(** Example 5: chained panels, 128x64 as two 64x64 panels side by side. *)
Definition getDefaultConfig_Chained : hub75_config_t :=
  HUB75_CONFIG_DEFAULT
  ;; set_width 128
  ;; set_height 64
  ;; set_scan_pattern HUB75_SCAN_1_32
  ;; on_pins (Pins.set_r1 25)
  ;; on_pins (Pins.set_g1 26)
  ;; on_pins (Pins.set_b1 27)
  ;; on_pins (Pins.set_r2 14)
  ;; on_pins (Pins.set_g2 12)
  ;; on_pins (Pins.set_b2 13)
  ;; on_pins (Pins.set_a 23)
  ;; on_pins (Pins.set_b 19)
  ;; on_pins (Pins.set_c 5)
  ;; on_pins (Pins.set_d 17)
  ;; on_pins (Pins.set_e 18)
  ;; on_pins (Pins.set_lat 4)
  ;; on_pins (Pins.set_oe 15)
  ;; on_pins (Pins.set_clk 16).

(** Example 6: ESP32-S3 with two chained 64x64 panels. *)
Definition getUserConfig_ESP32S3_Dual64x64 : hub75_config_t :=
  HUB75_CONFIG_DEFAULT
  ;; set_width 64
  ;; set_height 64
  ;; set_chain_length 2
  ;; set_scan_pattern HUB75_SCAN_1_32
  ;; on_pins (Pins.set_r1 1)
  ;; on_pins (Pins.set_g1 5)
  ;; on_pins (Pins.set_b1 6)
  ;; on_pins (Pins.set_r2 7)
  ;; on_pins (Pins.set_g2 13)
  ;; on_pins (Pins.set_b2 9)
  ;; on_pins (Pins.set_a 16)
  ;; on_pins (Pins.set_b 48)
  ;; on_pins (Pins.set_c 47)
  ;; on_pins (Pins.set_d 21)
  ;; on_pins (Pins.set_e 38)
  ;; on_pins (Pins.set_lat 8)
  ;; on_pins (Pins.set_oe 4)
  ;; on_pins (Pins.set_clk 18)
  ;; set_output_clock_speed 20000000
  ;; set_latch_blanking 1
  ;; set_clk_phase_inverted false
  ;; set_bit_depth 8
  ;; set_min_refresh_rate 60
  ;; set_double_buffer false
  ;; set_temporal_dither false
  ;; set_gamma_mode HUB75_GAMMA_CIE1931
  ;; set_brightness 255.

(** The six examples, in the order of the header. *)
Definition example_configs : list hub75_config_t :=
  [ getDefaultConfig_ESP32; getDefaultConfig_32x32; getDefaultConfig_ESP32S3;
    getDefaultConfig_ESP32C6; getDefaultConfig_Chained;
    getUserConfig_ESP32S3_Dual64x64 ].

End Examples.

(** ** Standard output and [printPinConfig] *)

(** The only state a function of the header touches is the standard output
    stream, which [printf] extends. *)
Record world : Type := mk_world { stdout : string }.

Definition IO (A : Type) : Type := world -> A * world.

Definition ret {A : Type} (x : A) : IO A := fun w => (x, w).

Definition bind {A B : Type} (m : IO A) (f : A -> IO B) : IO B :=
  fun w => let (x, w') := m w in f x w'.

Notation "m >> n" := (bind m (fun _ => n)) (at level 62, right associativity).

(** A C string literal: backslash followed by [n] is the newline character. *)
Fixpoint c_lit (s : string) : string :=
  match s with
  | String "\" (String "n" rest) => String "010" (c_lit rest)
  | String ch rest => String ch (c_lit rest)
  | EmptyString => EmptyString
  end.

(** The conversion [%d]: a signed decimal numeral. *)
Definition fmt_d (v : Z) : string := NilZero.string_of_int (Z.to_int v).

(** The text [printf] produces: the format with every [%d] replaced by the
    next argument.  (A [%d] without an argument is undefined in C; it prints
    nothing here, and no call of the header has one.) *)
Fixpoint format (fmt : string) (args : list Z) : string :=
  match fmt with
  | String "%" (String "d" rest) =>
      match args with
      | v :: args' => (fmt_d v ++ format rest args')%string
      | [] => format rest []
      end
  | String ch rest => String ch (format rest args)
  | EmptyString => EmptyString
  end.

Definition printf (fmt : string) (args : list Z) : IO unit :=
  fun w => (tt, mk_world (stdout w ++ format (c_lit fmt) args)%string).

(** Helper of the header: print the pin configuration (for debugging). *)
Definition printPinConfig (pins : Pins.hub75_pins_t) : IO unit :=
  printf "HUB75 Pin Configuration:\n" [] >>
  printf "  Data (Upper): R1=%d, G1=%d, B1=%d\n"
         [Pins.r1 pins; Pins.g1 pins; Pins.b1 pins] >>
  printf "  Data (Lower): R2=%d, G2=%d, B2=%d\n"
         [Pins.r2 pins; Pins.g2 pins; Pins.b2 pins] >>
  printf "  Address: A=%d, B=%d, C=%d, D=%d, E=%d\n"
         [Pins.a pins; Pins.b pins; Pins.c pins; Pins.d pins; Pins.e pins] >>
  printf "  Control: LAT=%d, OE=%d, CLK=%d\n"
         [Pins.lat pins; Pins.oe pins; Pins.clk pins].

(** What a run of [printPinConfig] adds to the standard output. *)
Definition printed (pins : Pins.hub75_pins_t) : string :=
  stdout (snd (printPinConfig pins (mk_world ""))).

(** The labels [printPinConfig] prints, in the order of [Pins.all_pins]. *)
Definition signal_labels : list string :=
  ["R1"; "G1"; "B1"; "R2"; "G2"; "B2"; "A"; "B"; "C"; "D"; "E";
   "LAT"; "OE"; "CLK"]%string.

(** [sub] occurs in [s]. *)
Definition occurs (sub s : string) : Prop :=
  exists pre post : string, s = (pre ++ sub ++ post)%string.

(** ** Calls of the example constructors

    While a constructor runs, the state of the program is its local
    variable [config] and the mutable state of namespace scope, of whatever
    type [G] the program gives it.  A statement may read and write both. *)
Record frame (G : Type) : Type := mk_frame { config : hub75_config_t; globals : G }.

Arguments mk_frame {G} _ _.
Arguments config {G} _.
Arguments globals {G} _.

Definition stmt (G : Type) : Type := frame G -> frame G.


Fixpoint run {G : Type} (body : list (stmt G)) (s : frame G) : frame G :=
  match body with
  | [] => s
  | st :: rest => run rest (st s)
  end.

(** A call: [hub75_config_t config = HUB75_CONFIG_DEFAULT();], the
    statements of the body, [return config;].  The call yields the record
    returned and the state of namespace scope it leaves behind. *)
Definition invoke {G : Type} (HUB75_CONFIG_DEFAULT : hub75_config_t)
    (body : list (stmt G)) (g : G) : hub75_config_t * G :=
  let s := run body (mk_frame HUB75_CONFIG_DEFAULT g) in
  (config s, globals s).









(** ** The engine components the configuration is handed to

    The engine itself (validator, encoder, sequencer, chain mapper) is not in
    [pins_example.h]; each definition below follows the design document. *)

(** Modelled from the spec: the number of address lines a scan pattern
    needs (1/32 requires the five lines A to E); the table belongs to
    [hub75.h]. *)
Definition required_address_lines (sp : hub75_scan_pattern_t) : Z :=
  match sp with
  | HUB75_SCAN_1_8 => 3
  | HUB75_SCAN_1_16 => 4
  | HUB75_SCAN_1_32 => 5
  end.

(** Modelled from the spec: the denominator of the scan fraction, the number
    of distinct row addresses (1/32 scan = 32 row-pairs). *)
Definition scan_rows (sp : hub75_scan_pattern_t) : Z :=
  2 ^ required_address_lines sp.

(** The address pins supplied, that is, not marked unused. *)
Definition active_address_lines (p : Pins.hub75_pins_t) : Z :=
  Z.of_nat (List.length (filter (fun v => negb (v =? Pins.unused)) (Pins.address_pins p))).

(** *** Bit-plane encoder (binary code modulation) *)

(** Modelled from the spec: the bit-plane encoder, absent from the sources.
    For bit depth [N] a pixel has [N] planes; plane [k] is bit [k] of the
    preprocessed intensity and is displayed for [2^k] time units. *)
Definition plane_bit (v : Z) (k : nat) : bool := Z.testbit v (Z.of_nat k).

Definition plane_duration (k : nat) : Z := 2 ^ Z.of_nat k.

(** Modelled from the spec: the planes of one pixel, each with its display
    duration, plane 0 first. *)
Definition encode_pixel (N : nat) (v : Z) : list (bool * Z) :=
  map (fun k => (plane_bit v k, plane_duration k)) (seq 0 N).

(** Modelled from the spec: the output of the encoder for a whole row, one
    bitmap and its duration per bit index. *)
Definition encode_row (N : nat) (row : list Z) : list (list bool * Z) :=
  map (fun k => (map (fun v => plane_bit v k) row, plane_duration k)) (seq 0 N).

(** The light a pixel emits over one pass: the durations of the planes in
    which it is lit. *)
Fixpoint displayed (planes : list (bool * Z)) : Z :=
  match planes with
  | [] => 0
  | (lit, t) :: rest => (if lit then t else 0) + displayed rest
  end.

(** *** Scan/address sequencer *)

(** Modelled from the spec: the number of row-pairs of a frame,
    [height / 2^scan_divisor].  The spec names [scan_divisor] without
    defining it; it is the exponent of the number of rows one address lights
    ([height / scan_rows], two on a dual-row panel), which gives the 32
    row-pairs of a 64-row 1/32-scan panel. *)
Definition scan_divisor (k : hub75_config_t) : Z :=
  Z.log2 (height k / scan_rows (scan_pattern k)).

Definition row_pair_count (k : hub75_config_t) : Z :=
  height k / 2 ^ scan_divisor k.

(** *** Chain mapper *)

(** Modelled from the spec: the chain mapper, absent from the sources.  The
    logical canvas is [chain_length] panels wide. *)
Definition logical_width (k : hub75_config_t) : Z :=
  chain_length k * width k.

(** Modelled from the spec: the row data of the chain for one colour lane,
    the rows of the panels in physical order, panel 0 first. *)
Definition chain_row (panels : list (list bool)) : list bool :=
  List.concat panels.

(** Modelled from the spec: the panel and the local column of logical
    column [x]; walk down the chain, panel 0 first, leaving one panel width
    behind at each step. *)
Fixpoint chain_locate (W : nat) (chain : nat) (panel : nat) (x : nat)
    : option (nat * nat) :=
  match chain with
  | O => None
  | S rest =>
      if (x <? W)%nat then Some (panel, x)
      else chain_locate W rest (S panel) (x - W)
  end.

(** Modelled from the spec: the chain mapper on a configuration. *)
Definition chain_map (k : hub75_config_t) (x : nat) : option (nat * nat) :=
  chain_locate (Z.to_nat (width k)) (Z.to_nat (chain_length k)) 0 x.

(** *** Configuration validator *)

(** Modelled from the spec: what the validator is told about the output
    side: the clock range the peripheral supports and the time, in seconds,
    the timing engine computes for one frame of a configuration.  The design
    gives neither a formula nor a time unit for the latter, so it is a
    parameter of the validator. *)
Record hw_caps : Type := mk_hw {
  clock_min : Z;
  clock_max : Z;
  frame_time : hub75_config_t -> Q
}.

(** Modelled from the spec: the time a frame may take, [1 / min_refresh_rate]
    seconds. *)
Definition refresh_budget (k : hub75_config_t) : Q :=
  (1 / inject_Z (min_refresh_rate k))%Q.

(** The checks of the validator, one by one. *)
Definition geometry_ok (k : hub75_config_t) : bool :=
  (0 <? width k) && (0 <? height k) && (1 <=? chain_length k).

Definition address_lines_ok (k : hub75_config_t) : bool :=
  required_address_lines (scan_pattern k) <=? active_address_lines (pins k).

Definition clock_ok (hw : hw_caps) (k : hub75_config_t) : bool :=
  (clock_min hw <=? output_clock_speed k) && (output_clock_speed k <=? clock_max hw).

Definition bit_depth_ok (k : hub75_config_t) : bool :=
  1 <=? bit_depth k.

Definition refresh_ok (hw : hw_caps) (k : hub75_config_t) : bool :=
  Qle_bool (frame_time hw k) (refresh_budget k).

(** Modelled from the spec: the typed rejection, one case per check. *)
Inductive ConfigurationError : Type :=
  | InvalidGeometry
  | InsufficientAddressLines
  | ClockOutOfRange
  | InvalidBitDepth
  | UnattainableRefreshRate.

(** Modelled from the spec: the configuration validator, absent from the
    sources; a pure function that hands back the configuration or the first
    check that failed, in the order the design lists the checks. *)
Definition validate (hw : hw_caps) (k : hub75_config_t)
    : ConfigurationError + hub75_config_t :=
  if negb (geometry_ok k) then inl InvalidGeometry
  else if negb (address_lines_ok k) then inl InsufficientAddressLines
  else if negb (clock_ok hw k) then inl ClockOutOfRange
  else if negb (bit_depth_ok k) then inl InvalidBitDepth
  else if negb (refresh_ok hw k) then inl UnattainableRefreshRate
  else inr k.

(** A concrete baseline and a concrete output side, for the examples below:
    a single 64x64 panel at 20 MHz with one blanking cycle, and an output
    clock between 1 MHz and 40 MHz on which every frame takes 10 ms. *)
Definition sample_baseline : hub75_config_t :=
  mk_config 64 64 1 HUB75_SCAN_1_32
    (Pins.mk (-1) (-1) (-1) (-1) (-1) (-1) (-1) (-1) (-1) (-1) (-1) (-1) (-1) (-1))
    20000000 8 60 false false HUB75_GAMMA_CIE1931 128 1 false.

Definition sample_hw : hw_caps := mk_hw 1000000 40000000 (fun _ => 1 # 100)%Q.

(** The first example with its line E taken away. *)
Definition ESP32_without_E : hub75_config_t :=
  on_pins (Pins.set_e (-1)) (getDefaultConfig_ESP32 sample_baseline).

(** ** Vocabulary for the properties of the header *)

(** The characters a [%d] conversion can produce: the sign and the digits. *)
Definition numeric_char (ch : ascii) : bool :=
  Ascii.eqb ch "-"
  || ((48 <=? nat_of_ascii ch)%nat && (nat_of_ascii ch <=? 57)%nat).

Fixpoint only_numeric (s : string) : bool :=
  match s with
  | EmptyString => true
  | String ch rest => numeric_char ch && only_numeric rest
  end.

(** The number of occurrences of a character in a text. *)
Fixpoint count_char (ch : ascii) (s : string) : nat :=
  match s with
  | EmptyString => O
  | String ch' rest =>
      ((if Ascii.eqb ch ch' then 1 else 0) + count_char ch rest)%nat
  end.

Definition newline : ascii := "010"%char.

(** The GPIO restrictions the header states in its opening comment:
    on ESP32 avoid GPIO 6-11 (connected to flash) and GPIO 34-39
    (input-only); on ESP32-S3 avoid GPIO 26-37 (flash/PSRAM). *)
Definition esp32_avoid (gpio : Z) : bool :=
  ((6 <=? gpio) && (gpio <=? 11)) || ((34 <=? gpio) && (gpio <=? 39)).

Definition esp32s3_avoid (gpio : Z) : bool :=
  (26 <=? gpio) && (gpio <=? 37).

(** The thirteen signals other than address line E. *)
Definition pins_but_E (p : Pins.hub75_pins_t) : list Z :=
  Pins.data_pins p
  ++ [Pins.a p; Pins.b p; Pins.c p; Pins.d p]
  ++ Pins.control_pins p.

(** * Properties *)

(** ** The example constructors *)

(** C7: the fields [getDefaultConfig_32x32] does not assign (chain_length,
    output_clock_speed, bit_depth, min_refresh_rate, double_buffer,
    temporal_dither, gamma_mode, brightness, latch_blanking,
    clk_phase_inverted) keep the value they have in the baseline
    [HUB75_CONFIG_DEFAULT()], whatever the baseline is; the fields it does
    assign hold the assigned values. *)
Theorem getDefaultConfig_32x32_frame (base : hub75_config_t) :
  let k := getDefaultConfig_32x32 base in
  (chain_length k = chain_length base /\
   output_clock_speed k = output_clock_speed base /\
   bit_depth k = bit_depth base /\
   min_refresh_rate k = min_refresh_rate base /\
   double_buffer k = double_buffer base /\
   temporal_dither k = temporal_dither base /\
   gamma_mode k = gamma_mode base /\
   brightness k = brightness base /\
   latch_blanking k = latch_blanking base /\
   clk_phase_inverted k = clk_phase_inverted base) /\
  (width k = 32 /\ height k = 32 /\ scan_pattern k = HUB75_SCAN_1_16 /\
   pins k = Pins.mk 25 26 27 14 12 13 23 19 5 17 (-1) 4 15 16).
Proof.
  cbv zeta. unfold getDefaultConfig_32x32.
  repeat split.
Qed.

Ltac distinct_pins :=
  repeat (constructor; [ simpl; intuition discriminate | ]); constructor.

(** C9: in each of the six example configurations the GPIO numbers of the
    fourteen signals, the unused ones ([-1]) left out, are pairwise
    distinct. *)
Theorem example_pins_distinct (base : hub75_config_t) :
  Forall (fun k => NoDup (Pins.wired (pins k))) (example_configs base).
Proof.
  unfold example_configs.
  repeat (apply Forall_cons; [ cbv; distinct_pins | ]).
  apply Forall_nil.
Qed.

(** C10: in each example a height of 64 comes with 1/32 scan and a height
    of 32 with 1/16 scan, and the number of row addresses of the scan
    pattern is half the height. *)
Theorem example_scan_matches_height (base : hub75_config_t) :
  Forall (fun k =>
            (height k = 64 -> scan_pattern k = HUB75_SCAN_1_32) /\
            (height k = 32 -> scan_pattern k = HUB75_SCAN_1_16) /\
            (height k = 64 \/ height k = 32) /\
            scan_rows (scan_pattern k) = height k / 2 /\
            row_pair_count k = height k / 2)
         (example_configs base).
Proof.
  unfold example_configs.
  repeat (apply Forall_cons;
          [ cbn; repeat split; try reflexivity; try discriminate;
            (left; reflexivity) || (right; reflexivity) | ]).
  apply Forall_nil.
Qed.




(** A statement that reads the state of namespace scope is not of that
    kind: the record a call returns then varies with that state. *)
Example global_read_is_visible :
  let body : list (stmt Z) :=
    [ fun s => mk_frame (set_brightness (globals s) (config s)) (globals s) ] in
  fst (invoke sample_baseline body 10) <> fst (invoke sample_baseline body 20).
Proof. vm_compute. discriminate. Qed.



(** ** [printPinConfig] *)

Lemma append_assoc (s1 s2 s3 : string) :
  ((s1 ++ s2) ++ s3 = s1 ++ (s2 ++ s3))%string.
Proof. induction s1 as [ | ch s1 IH ]; cbn; [ reflexivity | now rewrite IH ]. Qed.

Lemma occurs_skip (ch : ascii) (sub s : string) :
  occurs sub s -> occurs sub (String ch s).
Proof. intros (pre & post & ->). now exists (String ch pre), post. Qed.

Lemma occurs_skip_app (t sub s : string) :
  occurs sub s -> occurs sub (t ++ s)%string.
Proof.
  intros (pre & post & ->). exists (t ++ pre)%string, post.
  now rewrite append_assoc.
Qed.

Ltac find_occurrence :=
  first [ solve [ exists ""%string; eexists; reflexivity ]
        | apply occurs_skip; find_occurrence
        | apply occurs_skip_app; find_occurrence ].

Lemma printed_text (p : Pins.hub75_pins_t) :
  printed p =
  format
    (c_lit "HUB75 Pin Configuration:\n  Data (Upper): R1=%d, G1=%d, B1=%d\n  Data (Lower): R2=%d, G2=%d, B2=%d\n  Address: A=%d, B=%d, C=%d, D=%d, E=%d\n  Control: LAT=%d, OE=%d, CLK=%d\n")
    (Pins.all_pins p).
Proof.
  unfold printed, printPinConfig, bind, printf.
  cbn -[fmt_d].
  repeat (rewrite !append_assoc; cbn -[fmt_d]).
  reflexivity.
Qed.

Lemma printPinConfig_appends (p : Pins.hub75_pins_t) (w : world) :
  stdout (snd (printPinConfig p w)) = (stdout w ++ printed p)%string.
Proof.
  unfold printed, printPinConfig, bind, printf.
  cbn -[fmt_d format c_lit append].
  now rewrite !append_assoc.
Qed.

(** The text printed for the 32x32 example, with its unused line E. *)
Example printed_32x32 (base : hub75_config_t) :
  printed (pins (getDefaultConfig_32x32 base)) =
  c_lit "HUB75 Pin Configuration:\n  Data (Upper): R1=25, G1=26, B1=27\n  Data (Lower): R2=14, G2=12, B2=13\n  Address: A=23, B=19, C=5, D=17, E=-1\n  Control: LAT=4, OE=15, CLK=16\n".
Proof. reflexivity. Qed.

(** C6 (as stated, refuted): the pin record does not hold 13 signals; the
    pins of the first example are fourteen values. *)
Lemma pin_record_not_13_signals :
  List.length (Pins.all_pins (Pins.mk 25 26 27 14 12 13 23 19 5 17 18 4 15 16))
  <> 13%nat.
Proof. cbn. discriminate. Qed.

(** C6 (amended): the pin record holds exactly 14 signals (r1, g1, b1, r2,
    g2, b2, a, b, c, d, e, lat, oe, clk); [printPinConfig] appends to the
    standard output a text in which every one of them occurs as
    [LABEL=value], the value as a signed decimal numeral. *)
Theorem printPinConfig_renders (p : Pins.hub75_pins_t) (w : world) :
  List.length (Pins.all_pins p) = 14%nat /\
  List.length (combine signal_labels (Pins.all_pins p)) = 14%nat /\
  stdout (snd (printPinConfig p w)) = (stdout w ++ printed p)%string /\
  Forall (fun lv : string * Z =>
            occurs (fst lv ++ "=" ++ fmt_d (snd lv)) (printed p))
         (combine signal_labels (Pins.all_pins p)).
Proof.
  split; [ reflexivity | ].
  split; [ reflexivity | ].
  split; [ apply printPinConfig_appends | ].
  rewrite printed_text.
  cbn -[fmt_d].
  repeat (apply Forall_cons; [ find_occurrence | ]).
  apply Forall_nil.
Qed.

(** ** Bit-plane encoder *)

Lemma displayed_app (p q : list (bool * Z)) :
  displayed (p ++ q) = displayed p + displayed q.
Proof.
  induction p as [ | [lit t] p IH ]; cbn [displayed app]; [ reflexivity | lia ].
Qed.

Lemma encode_pixel_S (N : nat) (v : Z) :
  encode_pixel (S N) v = encode_pixel N v ++ [(plane_bit v N, plane_duration N)].
Proof.
  unfold encode_pixel. now rewrite seq_S, map_app.
Qed.

(** The planes of a pixel carry the low [N] bits of the intensity. *)
Lemma displayed_encode_pixel (N : nat) (v : Z) :
  displayed (encode_pixel N v) = v mod 2 ^ Z.of_nat N.
Proof.
  induction N as [ | N IH ].
  - cbn. now rewrite Z.mod_1_r.
  - rewrite encode_pixel_S, displayed_app, IH. cbn [displayed].
    unfold plane_bit, plane_duration.
    replace (Z.of_nat (S N)) with (Z.of_nat N + 1) by lia.
    rewrite Z.pow_add_r, Z.pow_1_r by lia.
    rewrite Z.rem_mul_r by lia.
    rewrite <- Z.testbit_spec' by lia.
    destruct (Z.testbit v (Z.of_nat N)); cbn [Z.b2z]; lia.
Qed.

Lemma encode_pixel_nth (N : nat) (v : Z) (k : nat) :
  (k < N)%nat ->
  nth_error (encode_pixel N v) k = Some (Z.testbit v (Z.of_nat k), 2 ^ Z.of_nat k).
Proof.
  intros Hk. unfold encode_pixel.
  rewrite nth_error_map, nth_error_seq.
  destruct (Nat.ltb_spec k N) as [ _ | Hge ]; [ reflexivity | lia ].
Qed.

(** The row encoder is the pixel encoder, pixel by pixel. *)
Lemma encode_row_pixel (N : nat) (row : list Z) (i : nat) (v : Z) :
  nth_error row i = Some v ->
  map (fun plane : list bool * Z =>
         (nth i (fst plane) false, snd plane)) (encode_row N row)
  = encode_pixel N v.
Proof.
  intros Hi. unfold encode_row, encode_pixel.
  rewrite map_map. apply map_ext. intros k. cbn [fst snd].
  f_equal.
  apply nth_error_nth.
  exact (map_nth_error (fun u => plane_bit u k) i row Hi).
Qed.

(** C4: for an intensity [v] in the range of bit depth [N], the encoder
    produces exactly [N] planes, plane [k] holds bit [k] of [v] and is shown
    for [2^k] time units, and the durations of the lit planes add up to [v]
    (so they are within one unit of the smallest step of [v]). *)
Theorem bit_planes_reconstruct (N : nat) (v : Z) (Hv : 0 <= v < 2 ^ Z.of_nat N) :
  List.length (encode_pixel N v) = N /\
  (forall k : nat, (k < N)%nat ->
     nth_error (encode_pixel N v) k = Some (Z.testbit v (Z.of_nat k), 2 ^ Z.of_nat k)) /\
  displayed (encode_pixel N v) = v /\
  Z.abs (displayed (encode_pixel N v) - v) <= plane_duration 0.
Proof.
  assert (Hsum : displayed (encode_pixel N v) = v)
    by (rewrite displayed_encode_pixel; now apply Z.mod_small).
  split; [ unfold encode_pixel; now rewrite length_map, length_seq | ].
  split; [ intros k Hk; now apply encode_pixel_nth | ].
  split; [ exact Hsum | ].
  rewrite Hsum. unfold plane_duration. cbn. lia.
Qed.

Lemma bit_planes_reconstruct_witness :
  0 <= 200 < 2 ^ Z.of_nat 8 /\ displayed (encode_pixel 8 200) = 200.
Proof.
  split; [ cbn; lia | ].
  apply (bit_planes_reconstruct 8 200). cbn; lia.
Defined.

(** ** Chain mapper *)

(** Walking a chain of two panels is division by the panel width. *)
Lemma chain_locate_two (W x : nat) :
  (x < 2 * W)%nat ->
  chain_locate W 2 0 x = Some (x / W, x mod W)%nat.
Proof.
  intros Hx. cbn [chain_locate].
  destruct (Nat.ltb_spec x W) as [Hlt | Hge].
  - now rewrite Nat.div_small, Nat.mod_small.
  - destruct (Nat.ltb_spec (x - W) W) as [Hlt | Hge']; [ | lia ].
    assert (Hq : (x / W = 1)%nat)
      by (symmetry; apply (Nat.div_unique x W 1 (x - W)); lia).
    assert (Hr : (x mod W = x - W)%nat)
      by (symmetry; apply (Nat.mod_unique x W 1 (x - W)); lia).
    now rewrite Hq, Hr.
Qed.

(** In the concatenated row, logical column [x] holds what panel [x / W]
    holds in its column [x mod W]. *)
Lemma chain_row_two (W x : nat) (p0 p1 : list bool) :
  List.length p0 = W -> List.length p1 = W -> (x < 2 * W)%nat ->
  nth_error (chain_row [p0; p1]) x
  = nth_error (nth (x / W) [p0; p1] []) (x mod W).
Proof.
  intros H0 H1 Hx. unfold chain_row. cbn [List.concat]. rewrite app_nil_r.
  destruct (Nat.ltb_spec x W) as [Hlt | Hge].
  - rewrite Nat.div_small, Nat.mod_small by lia. cbn [nth].
    apply nth_error_app1. lia.
  - assert (Hq : (x / W = 1)%nat)
      by (symmetry; apply (Nat.div_unique x W 1 (x - W)); lia).
    assert (Hr : (x mod W = x - W)%nat)
      by (symmetry; apply (Nat.mod_unique x W 1 (x - W)); lia).
    rewrite Hq, Hr. cbn [nth].
    rewrite nth_error_app2 by lia. now rewrite H0.
Qed.

(** C2: with two chained panels of width [W], logical column [x < 2W] lies
    on panel [x / W] at local column [x mod W]; the logical canvas is [2W]
    wide and the concatenated row of a colour lane is [2W] bits long, its
    bit [x] being bit [x mod W] of panel [x / W].  For
    [getUserConfig_ESP32S3_Dual64x64] the canvas is 128 wide and column 100
    is column 36 of panel 1. *)
Theorem chain_of_two_maps (base k : hub75_config_t) (W x : nat) (p0 p1 : list bool)
    (Hchain : chain_length k = 2) (Hwidth : width k = Z.of_nat W)
    (Hx : (x < 2 * W)%nat)
    (Hp0 : List.length p0 = W) (Hp1 : List.length p1 = W) :
  (chain_map k x = Some (x / W, x mod W)%nat /\
   (x / W < 2)%nat /\ (x mod W < W)%nat /\
   logical_width k = 2 * Z.of_nat W /\
   List.length (chain_row [p0; p1]) = (2 * W)%nat /\
   nth_error (chain_row [p0; p1]) x
   = nth_error (nth (x / W) [p0; p1] []) (x mod W)) /\
  (width (getUserConfig_ESP32S3_Dual64x64 base) = 64 /\
   chain_length (getUserConfig_ESP32S3_Dual64x64 base) = 2 /\
   logical_width (getUserConfig_ESP32S3_Dual64x64 base) = 128 /\
   chain_map (getUserConfig_ESP32S3_Dual64x64 base) 100 = Some (1, 36)%nat).
Proof.
  split; [ | repeat split ].
  assert (HW : (0 < W)%nat) by lia.
  split.
  { unfold chain_map. rewrite Hchain, Hwidth, Nat2Z.id.
    change (Z.to_nat 2) with 2%nat. now apply chain_locate_two. }
  split; [ apply Nat.Div0.div_lt_upper_bound; lia | ].
  split; [ apply Nat.mod_upper_bound; lia | ].
  split; [ unfold logical_width; rewrite Hchain, Hwidth; reflexivity | ].
  split; [ unfold chain_row; cbn [List.concat];
           rewrite !length_app, Hp0, Hp1; cbn [List.length]; lia | ].
  now apply chain_row_two.
Qed.

Lemma chain_of_two_maps_witness :
  chain_map (getUserConfig_ESP32S3_Dual64x64 sample_baseline) 100
  = Some (100 / 64, 100 mod 64)%nat.
Proof.
  apply (chain_of_two_maps sample_baseline
           (getUserConfig_ESP32S3_Dual64x64 sample_baseline) 64 100
           (repeat true 64) (repeat false 64));
    [ reflexivity | reflexivity | lia | reflexivity | reflexivity ].
Defined.

(** ** Configuration validator *)

Lemma getDefaultConfig_32x32_fields (base : hub75_config_t) :
  getDefaultConfig_32x32 base =
  mk_config 32 32 (chain_length base) HUB75_SCAN_1_16
    (Pins.mk 25 26 27 14 12 13 23 19 5 17 (-1) 4 15 16)
    (output_clock_speed base) (bit_depth base) (min_refresh_rate base)
    (double_buffer base) (temporal_dither base) (gamma_mode base)
    (brightness base) (latch_blanking base) (clk_phase_inverted base).
Proof. vm_compute. reflexivity. Qed.

(** With line E unused at most four address lines are supplied. *)
Lemma active_lines_without_E (p : Pins.hub75_pins_t) :
  Pins.e p = -1 -> active_address_lines p <= 4.
Proof.
  intros HE. unfold active_address_lines, Pins.address_pins. rewrite HE.
  cbn [filter].
  destruct (negb (Pins.a p =? Pins.unused)), (negb (Pins.b p =? Pins.unused)),
           (negb (Pins.c p =? Pins.unused)), (negb (Pins.d p =? Pins.unused));
    cbn; lia.
Qed.

(** With lines A to D wired and E unused exactly four lines are supplied. *)
Lemma active_lines_A_to_D (p : Pins.hub75_pins_t) :
  Pins.a p <> -1 -> Pins.b p <> -1 -> Pins.c p <> -1 -> Pins.d p <> -1 ->
  Pins.e p = -1 -> active_address_lines p = 4.
Proof.
  intros Ha Hb Hc Hd HE. unfold active_address_lines, Pins.address_pins.
  rewrite HE. cbn [filter]. unfold Pins.unused.
  apply Z.eqb_neq in Ha, Hb, Hc, Hd. rewrite Ha, Hb, Hc, Hd. reflexivity.
Qed.

(** C3: a configuration with 1/32 scan whose address pin E is the unused
    sentinel [-1] fails the address-line check and is rejected with a
    [ConfigurationError] (the insufficient-lines one whenever its geometry
    is sound).  A 1/16-scan configuration with lines A to D wired and
    [E = -1] passes the address-line check, so it is never rejected for
    insufficient address lines; [getDefaultConfig_32x32] is one. *)
Theorem scan_1_32_needs_line_E (hw : hw_caps) (k base : hub75_config_t)
    (Hscan : scan_pattern k = HUB75_SCAN_1_32)
    (HE : Pins.e (pins k) = -1) :
  (address_lines_ok k = false /\
   (exists err : ConfigurationError, validate hw k = inl err) /\
   (geometry_ok k = true -> validate hw k = inl InsufficientAddressLines)) /\
  (forall k' : hub75_config_t,
     scan_pattern k' = HUB75_SCAN_1_16 ->
     Pins.a (pins k') <> -1 -> Pins.b (pins k') <> -1 ->
     Pins.c (pins k') <> -1 -> Pins.d (pins k') <> -1 ->
     Pins.e (pins k') = -1 ->
     address_lines_ok k' = true /\
     validate hw k' <> inl InsufficientAddressLines) /\
  (scan_pattern (getDefaultConfig_32x32 base) = HUB75_SCAN_1_16 /\
   Pins.e (pins (getDefaultConfig_32x32 base)) = -1 /\
   address_lines_ok (getDefaultConfig_32x32 base) = true /\
   validate hw (getDefaultConfig_32x32 base) <> inl InsufficientAddressLines).
Proof.
  assert (Hno : address_lines_ok k = false).
  { unfold address_lines_ok. rewrite Hscan. apply Z.leb_gt.
    pose proof (active_lines_without_E (pins k) HE). cbn. lia. }
  assert (Hpass : forall k', address_lines_ok k' = true ->
                             validate hw k' <> inl InsufficientAddressLines).
  { intros k' Hok. unfold validate. rewrite Hok.
    destruct (geometry_ok k'), (clock_ok hw k'), (bit_depth_ok k'),
             (refresh_ok hw k'); cbn [negb]; discriminate. }
  split; [ split; [ exact Hno | split ] | split ].
  - unfold validate. rewrite Hno.
    destruct (geometry_ok k); cbn [negb]; eauto.
  - intros Hgeo. unfold validate. now rewrite Hgeo, Hno.
  - intros k' Hs Ha Hb Hc Hd He.
    assert (Hok : address_lines_ok k' = true).
    { unfold address_lines_ok.
      rewrite Hs, (active_lines_A_to_D (pins k') Ha Hb Hc Hd He). reflexivity. }
    split; [ exact Hok | now apply Hpass ].
  - assert (Hok : address_lines_ok (getDefaultConfig_32x32 base) = true)
      by (rewrite getDefaultConfig_32x32_fields; reflexivity).
    split; [ now rewrite getDefaultConfig_32x32_fields | ].
    split; [ now rewrite getDefaultConfig_32x32_fields | ].
    split; [ exact Hok | now apply Hpass ].
Qed.

Lemma scan_1_32_needs_line_E_witness :
  validate sample_hw ESP32_without_E = inl InsufficientAddressLines.
Proof.
  refine (proj2 (proj2 (proj1 (scan_1_32_needs_line_E sample_hw ESP32_without_E
                                 sample_baseline _ _))) _);
    vm_compute; reflexivity.
Defined.

(** * Further properties of the header *)

(** ** The text of [printPinConfig] *)

Lemma uint_only_numeric (d : Decimal.uint) :
  only_numeric (NilEmpty.string_of_uint d) = true.
Proof. induction d; cbn; auto. Qed.

Lemma fmt_d_only_numeric (v : Z) : only_numeric (fmt_d v) = true.
Proof.
  unfold fmt_d, NilZero.string_of_int, NilZero.string_of_uint.
  destruct (Z.to_int v) as [d | d]; destruct d; cbn -[NilEmpty.string_of_uint];
    try reflexivity; apply (uint_only_numeric).
Qed.

(** [%d] loses nothing: the numeral reads back as the number. *)
Lemma fmt_d_read_back (v : Z) :
  option_map Z.of_int (NilZero.int_of_string (fmt_d v)) = Some v.
Proof.
  unfold fmt_d. rewrite NilZero.isi.
  - cbn [option_map]. now rewrite DecimalZ.of_to.
  - destruct v; cbn; try discriminate.
    intros [= H]. now apply (DecimalPos.Unsigned.to_uint_nonnil p).
  - destruct v; cbn; try discriminate.
    intros [= H]. now apply (DecimalPos.Unsigned.to_uint_nonnil p).
Qed.

Lemma fmt_d_inj (v v' : Z) : fmt_d v = fmt_d v' -> v = v'.
Proof.
  intros H. pose proof (fmt_d_read_back v) as Hv.
  rewrite H, fmt_d_read_back in Hv. congruence.
Qed.

(** Two numerals followed by characters that are not numeric end at the
    same place. *)
Lemma numeric_delimited (u v : string) (c1 c2 : ascii) (s1 s2 : string) :
  only_numeric u = true -> only_numeric v = true ->
  numeric_char c1 = false -> numeric_char c2 = false ->
  (u ++ String c1 s1 = v ++ String c2 s2)%string ->
  u = v /\ s1 = s2.
Proof.
  revert v. induction u as [ | a u IH ]; intros v Hu Hv H1 H2 Heq.
  - destruct v as [ | b v ]; cbn in *.
    + injection Heq as _ Hs. now split.
    + injection Heq as Hc _. subst b.
      apply andb_true_iff in Hv as [Hv _]. congruence.
  - cbn in Hu. apply andb_true_iff in Hu as [Ha Hu].
    destruct v as [ | b v ]; cbn in *.
    + injection Heq as Hc _. subst a. congruence.
    + apply andb_true_iff in Hv as [_ Hv].
      injection Heq as Hc Hrest. subst b.
      destruct (IH v Hu Hv H1 H2 Hrest) as [-> ->]. now split.
Qed.

Lemma fmt_d_delimited (a b : Z) (c1 c2 : ascii) (s1 s2 : string) :
  numeric_char c1 = false -> numeric_char c2 = false ->
  (fmt_d a ++ String c1 s1 = fmt_d b ++ String c2 s2)%string ->
  a = b /\ s1 = s2.
Proof.
  intros H1 H2 Heq.
  destruct (numeric_delimited _ _ _ _ _ _ (fmt_d_only_numeric a)
              (fmt_d_only_numeric b) H1 H2 Heq) as [Hab Hs].
  split; [ now apply fmt_d_inj | exact Hs ].
Qed.

Lemma count_char_app (ch : ascii) (s t : string) :
  count_char ch (s ++ t) = (count_char ch s + count_char ch t)%nat.
Proof. induction s as [ | a s IH ]; cbn; [ reflexivity | rewrite IH; lia ]. Qed.

Lemma count_char_numeric (ch : ascii) (s : string) :
  numeric_char ch = false -> only_numeric s = true -> count_char ch s = O.
Proof.
  intros Hch. induction s as [ | a s IH ]; cbn; [ reflexivity | ].
  intros H. apply andb_true_iff in H as [Ha Hs].
  destruct (Ascii.eqb_spec ch a) as [-> | _]; [ congruence | now apply IH ].
Qed.

Ltac peel_text H := repeat (injection H as H).

Ltac peel_numeral H Hv :=
  apply fmt_d_delimited in H; [ destruct H as [Hv H] | reflexivity | reflexivity ].

Lemma ends_skip (ch : ascii) (s : string) :
  (exists t : string, s = (t ++ String newline EmptyString)%string) ->
  exists t : string, String ch s = (t ++ String newline EmptyString)%string.
Proof. intros (t & ->). now exists (String ch t). Qed.

Lemma ends_skip_app (u s : string) :
  (exists t : string, s = (t ++ String newline EmptyString)%string) ->
  exists t : string, (u ++ s)%string = (t ++ String newline EmptyString)%string.
Proof. intros (t & ->). exists (u ++ t)%string. now rewrite append_assoc. Qed.

Ltac find_last_newline :=
  first [ solve [ exists ""%string; reflexivity ]
        | apply ends_skip; find_last_newline
        | apply ends_skip_app; find_last_newline ].

(** X1: the text of [printPinConfig] determines the pin record: two pin
    records that print the same text are the same record. *)
Theorem printed_injective (p q : Pins.hub75_pins_t) :
  printed p = printed q -> p = q.
Proof.
  intros H. rewrite !printed_text in H.
  destruct p, q. cbn -[fmt_d] in H.
  peel_text H. peel_numeral H E1.
  peel_text H. peel_numeral H E2.
  peel_text H. peel_numeral H E3.
  peel_text H. peel_numeral H E4.
  peel_text H. peel_numeral H E5.
  peel_text H. peel_numeral H E6.
  peel_text H. peel_numeral H E7.
  peel_text H. peel_numeral H E8.
  peel_text H. peel_numeral H E9.
  peel_text H. peel_numeral H E10.
  peel_text H. peel_numeral H E11.
  peel_text H. peel_numeral H E12.
  peel_text H. peel_numeral H E13.
  peel_text H. peel_numeral H E14.
  clear H. subst. reflexivity.
Qed.

Lemma printed_injective_witness :
  pins (getDefaultConfig_Chained sample_baseline)
  = pins (getDefaultConfig_ESP32 sample_baseline).
Proof.
  apply printed_injective. vm_compute. reflexivity.
Defined.

(** X2: whatever the pin values, the text of [printPinConfig] starts with
    the header line, ends with a newline and has exactly five lines. *)
Theorem printed_five_lines (p : Pins.hub75_pins_t) :
  count_char newline (printed p) = 5%nat /\
  (exists body : string,
     printed p = (c_lit "HUB75 Pin Configuration:\n" ++ body)%string) /\
  (exists text : string,
     printed p = (text ++ String newline EmptyString)%string).
Proof.
  rewrite printed_text. cbn -[fmt_d].
  split; [ | split ].
  - repeat (rewrite count_char_app,
              (count_char_numeric newline (fmt_d _) eq_refl (fmt_d_only_numeric _));
            cbn -[fmt_d]).
    reflexivity.
  - eexists. reflexivity.
  - find_last_newline.
Qed.

(** X3: two runs of [printPinConfig] append their two texts in the order of
    the calls, after whatever the standard output already held. *)
Theorem printPinConfig_twice (p q : Pins.hub75_pins_t) (w : world) :
  stdout (snd ((printPinConfig p >> printPinConfig q) w))
  = (stdout w ++ printed p ++ printed q)%string.
Proof.
  unfold bind at 1.
  destruct (printPinConfig p w) as [u w1] eqn:Hp.
  rewrite printPinConfig_appends.
  replace (stdout w1) with (stdout w ++ printed p)%string.
  - apply append_assoc.
  - rewrite <- printPinConfig_appends. now rewrite Hp.
Qed.

(** ** The example constructors and the baseline *)

Ltac by_evaluation := vm_compute; repeat split; reflexivity.

(** X4: the panel size, the scan pattern and all fourteen pins of each of
    the six examples are assigned by the example itself: they are the same
    whatever baseline [HUB75_CONFIG_DEFAULT()] provides. *)
Theorem example_geometry_and_pins_fixed (b1 b2 : hub75_config_t) :
  Forall2 (fun k1 k2 =>
             pins k1 = pins k2 /\ width k1 = width k2 /\
             height k1 = height k2 /\ scan_pattern k1 = scan_pattern k2)
          (example_configs b1) (example_configs b2).
Proof.
  unfold example_configs.
  repeat (apply Forall2_cons; [ by_evaluation | ]).
  apply Forall2_nil.
Qed.

(** X5: [getUserConfig_ESP32S3_Dual64x64] assigns every field, so its
    result does not depend on the baseline at all; each of the other five
    examples does depend on it. *)
Theorem dual_config_ignores_baseline :
  (forall b1 b2 : hub75_config_t,
     getUserConfig_ESP32S3_Dual64x64 b1 = getUserConfig_ESP32S3_Dual64x64 b2) /\
  Forall (fun ctor : hub75_config_t -> hub75_config_t =>
            exists b1 b2 : hub75_config_t, ctor b1 <> ctor b2)
         [ getDefaultConfig_ESP32; getDefaultConfig_32x32;
           getDefaultConfig_ESP32S3; getDefaultConfig_ESP32C6;
           getDefaultConfig_Chained ].
Proof.
  split; [ intros b1 b2; vm_compute; reflexivity | ].
  repeat (apply Forall_cons;
          [ exists sample_baseline, (set_chain_length 3 sample_baseline);
            intros H; apply (f_equal chain_length) in H;
            vm_compute in H; discriminate | ]).
  apply Forall_nil.
Qed.

(** X6: what each of [getDefaultConfig_ESP32], [getDefaultConfig_ESP32S3],
    [getDefaultConfig_ESP32C6] and [getDefaultConfig_Chained] returns: the
    values it assigns, and the value of the baseline in every field it does
    not assign.  None of the four assigns [chain_length], [latch_blanking]
    or [clk_phase_inverted]. *)
Theorem example_results (base : hub75_config_t) :
  getDefaultConfig_ESP32 base =
    mk_config 64 64 (chain_length base) HUB75_SCAN_1_32
      (Pins.mk 25 26 27 14 12 13 23 19 5 17 18 4 15 16)
      20000000 8 60 false false HUB75_GAMMA_CIE1931 255
      (latch_blanking base) (clk_phase_inverted base) /\
  getDefaultConfig_ESP32S3 base =
    mk_config 64 64 (chain_length base) HUB75_SCAN_1_32
      (Pins.mk 1 2 3 4 5 6 7 8 9 10 11 12 13 14)
      (output_clock_speed base) 10 (min_refresh_rate base) true true
      (gamma_mode base) (brightness base)
      (latch_blanking base) (clk_phase_inverted base) /\
  getDefaultConfig_ESP32C6 base =
    mk_config 64 64 (chain_length base) HUB75_SCAN_1_32
      (Pins.mk 0 1 2 3 4 5 6 7 8 9 10 11 12 13)
      40000000 (bit_depth base) (min_refresh_rate base)
      (double_buffer base) (temporal_dither base)
      (gamma_mode base) (brightness base)
      (latch_blanking base) (clk_phase_inverted base) /\
  getDefaultConfig_Chained base =
    mk_config 128 64 (chain_length base) HUB75_SCAN_1_32
      (Pins.mk 25 26 27 14 12 13 23 19 5 17 18 4 15 16)
      (output_clock_speed base) (bit_depth base) (min_refresh_rate base)
      (double_buffer base) (temporal_dither base)
      (gamma_mode base) (brightness base)
      (latch_blanking base) (clk_phase_inverted base).
Proof. by_evaluation. Qed.

(** X7: the examples keep to the GPIO restrictions the header states: the
    pins of the three examples for ESP32 avoid GPIO 6-11 and 34-39, the pins
    of the two examples for ESP32-S3 avoid GPIO 26-37.  The ESP32 mapping
    itself uses GPIO 26 and 27, which is why the ESP32-S3 examples have a
    mapping of their own. *)
Theorem examples_avoid_reserved_gpio (base : hub75_config_t) :
  Forall (fun k => forallb (fun v => negb (esp32_avoid v)) (Pins.wired (pins k)) = true)
         [ getDefaultConfig_ESP32 base; getDefaultConfig_32x32 base;
           getDefaultConfig_Chained base ] /\
  Forall (fun k => forallb (fun v => negb (esp32s3_avoid v)) (Pins.wired (pins k)) = true)
         [ getDefaultConfig_ESP32S3 base;
           getUserConfig_ESP32S3_Dual64x64 base ] /\
  filter esp32s3_avoid (Pins.wired (pins (getDefaultConfig_ESP32 base))) = [26; 27].
Proof.
  split; [ | split ].
  - repeat (apply Forall_cons; [ vm_compute; reflexivity | ]). apply Forall_nil.
  - repeat (apply Forall_cons; [ vm_compute; reflexivity | ]). apply Forall_nil.
  - vm_compute. reflexivity.
Qed.

(** X8: in each example address line E is left unused exactly when the scan
    pattern is 1/16 and wired exactly when it is 1/32; the thirteen other
    signals are always wired, to a GPIO number that is not negative. *)
Theorem example_line_E_follows_scan (base : hub75_config_t) :
  Forall (fun k =>
            (Pins.e (pins k) = Pins.unused <-> scan_pattern k = HUB75_SCAN_1_16) /\
            (0 <= Pins.e (pins k) <-> scan_pattern k = HUB75_SCAN_1_32) /\
            Forall (fun v => 0 <= v) (pins_but_E (pins k)))
         (example_configs base).
Proof.
  unfold example_configs.
  repeat (apply Forall_cons;
          [ vm_compute;
            repeat split; try (intros; reflexivity); try (intros; discriminate);
            try (intros H; now elim H);
            repeat (apply Forall_cons; [ discriminate | ]); try apply Forall_nil
          | ]).
  apply Forall_nil.
Qed.

(** X9: as the comments of the header say, [getDefaultConfig_32x32] has the
    pin mapping of [getDefaultConfig_ESP32] with line E unused, and
    [getDefaultConfig_Chained] has the pin mapping of
    [getDefaultConfig_ESP32] unchanged. *)
Theorem shared_esp32_pin_mapping (b1 b2 : hub75_config_t) :
  pins (getDefaultConfig_32x32 b1)
  = Pins.set_e Pins.unused (pins (getDefaultConfig_ESP32 b2)) /\
  pins (getDefaultConfig_Chained b1) = pins (getDefaultConfig_ESP32 b2).
Proof. by_evaluation. Qed.
